(** * NEORV32 TRNG driver ([sw/lib/source/neorv32_trng.c])

    A shallow embedding of the six driver functions as programs over the
    memory-mapped accesses they perform, together with an interpreter that
    runs such a program against a device and records the bus trace. *)

From Equations Require Import Equations.
From Stdlib Require Import ZArith List Lia Bool.
Import ListNotations.
Local Open Scope Z_scope.

(** ** Machine integers *)

(** Conversion to [uint32_t] and to [uint8_t]. *)
Definition u32 (z : Z) : Z := z mod 2 ^ 32.
Definition u8 (z : Z) : Z := z mod 2 ^ 8.

(** The C expression [1 << p]: computed in [int], then converted to
    [uint32_t] by the [&], [|=] or assignment it is an operand of. *)
Definition shl1 (p : Z) : Z := u32 (Z.shiftl 1 p).

(** C truth value of an integer used as a condition. *)
Definition nonzero (z : Z) : bool := negb (z =? 0).

(** ** Register layout

    The bit positions are enumerators of [neorv32_trng.h] and [neorv32.h],
    which the driver only includes; they are kept abstract. *)
Record layout : Set := Layout {
  SYSINFO_SOC_IO_TRNG : Z;
  TRNG_CTRL_DATA_LSB : Z;
  TRNG_CTRL_FIFO_CLR : Z;
  TRNG_CTRL_SIM_MODE : Z;
  TRNG_CTRL_EN : Z;
  TRNG_CTRL_VALID : Z
}.

(** ** Programs over the bus *)

(** What the driver can do to the outside world: a volatile load of
    [NEORV32_TRNG.CTRL], a volatile store to it, a volatile load of
    [NEORV32_SYSINFO.SOC], and [asm volatile ("nop")]. *)
Inductive prog (A : Type) : Type :=
| Ret (a : A)
| ReadCTRL (k : Z -> prog A)
| WriteCTRL (v : Z) (k : prog A)
| ReadSOC (k : Z -> prog A)
| AsmNop (k : prog A).

Arguments Ret {A} a.
Arguments ReadCTRL {A} k.
Arguments WriteCTRL {A} v k.
Arguments ReadSOC {A} k.
Arguments AsmNop {A} k.

Fixpoint bind {A B : Type} (p : prog A) (f : A -> prog B) : prog B :=
  match p with
  | Ret a => f a
  | ReadCTRL k => ReadCTRL (fun v => bind (k v) f)
  | WriteCTRL v k => WriteCTRL v (bind k f)
  | ReadSOC k => ReadSOC (fun v => bind (k v) f)
  | AsmNop k => AsmNop (bind k f)
  end.

Notation "x <- c ;; k" := (bind c (fun x => k))
  (at level 61, c at next level, right associativity).
Notation "c ;;; k" := (bind c (fun _ => k))
  (at level 61, right associativity).

Definition load_CTRL : prog Z := ReadCTRL Ret.
Definition store_CTRL (v : Z) : prog unit := WriteCTRL v (Ret tt).
Definition load_SOC : prog Z := ReadSOC Ret.
Definition nop : prog unit := AsmNop (Ret tt).

(** ** The driver *)

(** [for (i=0; i<256; i++) { asm volatile ("nop"); }], entered with the
    current value of [i]; returns the value of [i] on exit.  [i] stays within
    [0..256], so the [int] increment never wraps. *)
Definition iterations_left (i : Z) : nat := Z.to_nat (256 - i).

Equations? busy_wait (i : Z) : prog Z by wf (iterations_left i) lt :=
  busy_wait i with Z_lt_ge_dec i 256 => {
    | left Hlt => nop ;;; busy_wait (i + 1)
    | right Hge => Ret i }.
Proof. unfold iterations_left. lia. Qed.

Section Driver.

Variable L : layout.

(** [int neorv32_trng_available(void)] *)
Definition neorv32_trng_available : prog Z :=
  soc <- load_SOC ;;
  if nonzero (Z.land soc (shl1 (SYSINFO_SOC_IO_TRNG L)))
  then Ret 1
  else Ret 0.

(** [void neorv32_trng_fifo_clear(void)]: [CTRL |= 1 << TRNG_CTRL_FIFO_CLR]
    on a volatile object is one load followed by one store. *)
Definition neorv32_trng_fifo_clear : prog unit :=
  ctrl <- load_CTRL ;;
  store_CTRL (Z.lor ctrl (shl1 (TRNG_CTRL_FIFO_CLR L))).

(** [void neorv32_trng_enable(void)] *)
Definition neorv32_trng_enable : prog unit :=
  store_CTRL 0 ;;;
  busy_wait 0 ;;;
  store_CTRL (shl1 (TRNG_CTRL_EN L)) ;;;
  busy_wait 0 ;;;
  neorv32_trng_fifo_clear.

(** [void neorv32_trng_disable(void)] *)
Definition neorv32_trng_disable : prog unit :=
  store_CTRL 0.

(** [int neorv32_trng_get(uint8_t *data)].  The byte at [data] is passed
    in as [mem_data]; the result pairs the return value with the byte at
    [data] when the function returns. *)
Definition neorv32_trng_get (mem_data : Z) : prog (Z * Z) :=
  ct_reg <- load_CTRL ;;
  if nonzero (Z.land ct_reg (shl1 (TRNG_CTRL_VALID L)))
  then Ret (0, u8 (Z.shiftr ct_reg (TRNG_CTRL_DATA_LSB L)))
  else Ret (-1, mem_data).

(** [int neorv32_trng_check_sim_mode(void)] *)
Definition neorv32_trng_check_sim_mode : prog Z :=
  ctrl <- load_CTRL ;;
  if nonzero (Z.land ctrl (shl1 (TRNG_CTRL_SIM_MODE L)))
  then Ret (-1)
  else Ret 0.

End Driver.

(** ** Devices and traces *)

(** One entry per access that reaches the bus, with the value carried. *)
Inductive access : Set :=
| LoadCTRL (v : Z)
| StoreCTRL (v : Z)
| LoadSOC (v : Z)
| Nop.

(** A device answers loads (possibly changing state, as a FIFO does),
    absorbs stores, and lets time pass during a [nop]. *)
Record device : Type := Device {
  hw : Type;
  ctrl_load : hw -> Z * hw;
  ctrl_store : Z -> hw -> hw;
  soc_load : hw -> Z * hw;
  tick : hw -> hw
}.

Record outcome (A S : Type) : Type := Outcome {
  result : A;
  final : S;
  trace : list access
}.
Arguments Outcome {A S}.
Arguments result {A S}.
Arguments final {A S}.
Arguments trace {A S}.

Definition logged {A S : Type} (e : access) (o : outcome A S) : outcome A S :=
  Outcome (result o) (final o) (e :: trace o).

Fixpoint run {A : Type} (d : device) (p : prog A) (s : hw d)
  : outcome A (hw d) :=
  match p with
  | Ret a => Outcome a s []
  | ReadCTRL k =>
      let vs := ctrl_load d s in
      logged (LoadCTRL (fst vs)) (run d (k (fst vs)) (snd vs))
  | WriteCTRL v k =>
      logged (StoreCTRL v) (run d k (ctrl_store d v s))
  | ReadSOC k =>
      let vs := soc_load d s in
      logged (LoadSOC (fst vs)) (run d (k (fst vs)) (snd vs))
  | AsmNop k =>
      logged Nop (run d k (tick d s))
  end.

(** A register file whose control register holds [f v] after [v] is stored
    and is otherwise inert: [f] is what the hardware keeps of a store. *)
Record regs : Set := Regs { CTRL : Z; SOC : Z }.

Definition reg_model (f : Z -> Z) : device :=
  {| hw := regs;
     ctrl_load := fun r => (CTRL r, r);
     ctrl_store := fun v r => Regs (f v) (SOC r);
     soc_load := fun r => (SOC r, r);
     tick := fun r => r |}.

(** Plain storage: the register reads back what was last stored. *)
Definition latch : device := reg_model (fun v => v).

(** A layout to evaluate the driver on. *)
Definition sample_layout : layout :=
  {| SYSINFO_SOC_IO_TRNG := 24;
     TRNG_CTRL_DATA_LSB := 0;
     TRNG_CTRL_FIFO_CLR := 28;
     TRNG_CTRL_SIM_MODE := 29;
     TRNG_CTRL_EN := 30;
     TRNG_CTRL_VALID := 31 |}.

(** A register file whose FIFO_CLEAR bit resets itself as soon as it is
    stored ("auto clears"), every other stored bit being kept. *)
Definition self_clearing (L : layout) : device :=
  reg_model (fun v => Z.ldiff v (shl1 (TRNG_CTRL_FIFO_CLR L))).

(** The device after one settle delay: 256 [nop]s have gone by. *)
Definition after_delay (d : device) (s : hw d) : hw d :=
  Nat.iter 256 (tick d) s.

(** The device state in which [neorv32_trng_enable] calls
    [neorv32_trng_fifo_clear]. *)
Definition enabled_settled (L : layout) (d : device) (s : hw d) : hw d :=
  after_delay d
    (ctrl_store d (shl1 (TRNG_CTRL_EN L)) (after_delay d (ctrl_store d 0 s))).

Definition is_nop (e : access) : bool :=
  match e with
  | Nop => true
  | _ => false
  end.

(** Number of [nop] instructions executed along a trace. *)
Definition nops (t : list access) : nat := length (filter is_nop t).

(** ** Callers

    One call of a driver function by a caller that drops the return value;
    [Get] carries the byte found at the caller's [data] pointer. *)
Inductive call : Set :=
| Available
| Enable
| Disable
| FifoClear
| Get (mem_data : Z)
| CheckSimMode.

Definition perform (L : layout) (c : call) : prog unit :=
  match c with
  | Available => neorv32_trng_available L ;;; Ret tt
  | Enable => neorv32_trng_enable L
  | Disable => neorv32_trng_disable
  | FifoClear => neorv32_trng_fifo_clear L
  | Get mem_data => neorv32_trng_get L mem_data ;;; Ret tt
  | CheckSimMode => neorv32_trng_check_sim_mode L ;;; Ret tt
  end.

(** Any straight-line sequence of driver calls. *)
Fixpoint perform_all (L : layout) (cs : list call) : prog unit :=
  match cs with
  | [] => Ret tt
  | c :: cs' => perform L c ;;; perform_all L cs'
  end.

(** A 32-bit bus in front of a device: whatever the device answers, a load
    of [NEORV32_TRNG.CTRL] delivers a [uint32_t]. *)
Definition bus32 (d : device) : device :=
  {| hw := hw d;
     ctrl_load := fun s => (u32 (fst (ctrl_load d s)), snd (ctrl_load d s));
     ctrl_store := ctrl_store d;
     soc_load := soc_load d;
     tick := tick d |}.

(** A trace entry that is not a store of something wider than 32 bits. *)
Definition word_store (e : access) : bool :=
  match e with
  | StoreCTRL v => (0 <=? v) && (v <? 2 ^ 32)
  | _ => true
  end.

(** Two polls in a row through the same [data] pointer. *)
Definition get_twice (L : layout) (mem_data : Z)
  : prog ((Z * Z) * (Z * Z)) :=
  first <- neorv32_trng_get L mem_data ;;
  second <- neorv32_trng_get L (snd first) ;;
  Ret (first, second).

Arguments shl1 : simpl never.
Arguments u8 : simpl never.

(** ** Bit-level facts *)

Lemma shl1_pow2 (p : Z) : 0 <= p < 32 -> shl1 p = 2 ^ p.
Proof.
  intros Hp. unfold shl1, u32.
  rewrite Z.shiftl_1_l. apply Z.mod_small. split.
  - apply Z.pow_nonneg. lia.
  - apply Z.pow_lt_mono_r; lia.
Qed.

Lemma shl1_testbit (p i : Z) :
  0 <= p < 32 -> Z.testbit (shl1 p) i = (i =? p).
Proof.
  intros Hp. rewrite (shl1_pow2 p Hp).
  destruct (Z.eqb_spec i p) as [-> | Hne].
  - apply Z.pow2_bits_true. lia.
  - apply Z.pow2_bits_false. congruence.
Qed.

(** A condition [x & (1 << p)] tests bit [p] of [x]. *)
Lemma nonzero_land_shl1 (x p : Z) :
  0 <= p < 32 -> nonzero (Z.land x (shl1 p)) = Z.testbit x p.
Proof.
  intros Hp. unfold nonzero.
  destruct (Z.testbit x p) eqn:Hb.
  - destruct (Z.eqb_spec (Z.land x (shl1 p)) 0) as [H0 | _]; [| reflexivity].
    assert (Hc : Z.testbit (Z.land x (shl1 p)) p = true).
    { rewrite Z.land_spec, Hb, (shl1_testbit p p Hp), Z.eqb_refl. reflexivity. }
    rewrite H0, Z.bits_0 in Hc. discriminate.
  - replace (Z.land x (shl1 p)) with 0; [reflexivity |].
    symmetry. apply Z.bits_inj'. intros i _.
    rewrite Z.bits_0, Z.land_spec, (shl1_testbit p i Hp).
    destruct (Z.eqb_spec i p) as [-> | _].
    + rewrite Hb. reflexivity.
    + apply andb_false_r.
Qed.

Lemma u8_range (z : Z) : 0 <= u8 z < 256.
Proof. unfold u8. change (2 ^ 8) with 256. apply Z.mod_pos_bound. lia. Qed.

Lemma u8_shiftr_testbit (x lsb i : Z) :
  0 <= lsb -> 0 <= i < 8 ->
  Z.testbit (u8 (Z.shiftr x lsb)) i = Z.testbit x (lsb + i).
Proof.
  intros Hl Hi. unfold u8.
  rewrite Z.mod_pow2_bits_low by lia.
  rewrite Z.shiftr_spec by lia.
  f_equal. lia.
Qed.

Lemma u32_range (z : Z) : 0 <= u32 z < 2 ^ 32.
Proof. unfold u32. apply Z.mod_pos_bound. reflexivity. Qed.

Lemma lor_u32_range (x y : Z) :
  0 <= x < 2 ^ 32 -> 0 <= y < 2 ^ 32 -> 0 <= Z.lor x y < 2 ^ 32.
Proof.
  intros Hx Hy. split.
  - apply Z.lor_nonneg. lia.
  - destruct (Z.eq_dec (Z.lor x y) 0) as [-> | Hnz]; [reflexivity |].
    assert (Hpos : 0 < Z.lor x y).
    { assert (0 <= Z.lor x y) by (apply Z.lor_nonneg; lia). lia. }
    apply Z.log2_lt_pow2; [exact Hpos |].
    rewrite Z.log2_lor by lia.
    apply Z.max_lub_lt.
    + destruct (Z.eq_dec x 0) as [-> | ?]; [reflexivity |].
      apply Z.log2_lt_pow2; lia.
    + destruct (Z.eq_dec y 0) as [-> | ?]; [reflexivity |].
      apply Z.log2_lt_pow2; lia.
Qed.

(** The value stored by [CTRL |= 1 << p] fits [uint32_t] as it is: the
    model's store needs no truncation. *)
Lemma lor_shl1_range (x p : Z) :
  0 <= x < 2 ^ 32 -> 0 <= Z.lor x (shl1 p) < 2 ^ 32.
Proof.
  intros Hx. apply lor_u32_range; [exact Hx |].
  unfold shl1. apply u32_range.
Qed.

(** ** Running programs *)

Lemma run_bind {A B : Type} (d : device) (p : prog A) (f : A -> prog B) :
  forall s : hw d,
    run d (bind p f) s =
    let o := run d p s in
    let o' := run d (f (result o)) (final o) in
    Outcome (result o') (final o') (trace o ++ trace o').
Proof.
  induction p as [a | k IH | v k IH | k IH | k IH]; intros s; simpl.
  - destruct (run d (f a) s); reflexivity.
  - rewrite IH. reflexivity.
  - rewrite IH. reflexivity.
  - rewrite IH. reflexivity.
  - rewrite IH. reflexivity.
Qed.

Lemma final_run_bind {A B : Type} (d : device) (p : prog A)
    (f : A -> prog B) (s : hw d) :
  final (run d (bind p f) s) =
  final (run d (f (result (run d p s))) (final (run d p s))).
Proof. rewrite run_bind. reflexivity. Qed.

Lemma trace_run_bind {A B : Type} (d : device) (p : prog A)
    (f : A -> prog B) (s : hw d) :
  trace (run d (bind p f) s) =
  trace (run d p s) ++
  trace (run d (f (result (run d p s))) (final (run d p s))).
Proof. rewrite run_bind. reflexivity. Qed.

(** The loop body runs once per remaining value of [i] below 256 and the
    loop exits with [i = 256], whatever the device does meanwhile. *)
Lemma run_busy_wait (d : device) (i : Z) :
  i <= 256 ->
  forall s : hw d,
    run d (busy_wait i) s =
    Outcome 256 (Nat.iter (iterations_left i) (tick d) s)
                (repeat Nop (iterations_left i)).
Proof.
  funelim (busy_wait i); intros Hi s.
  - assert (Hn : iterations_left i = S (iterations_left (i + 1))).
    { unfold iterations_left. lia. }
    rewrite Hn. simpl. unfold logged.
    match goal with
    | IH : forall _ : unit, _ |- _ => rewrite (IH tt) by lia
    end.
    simpl. rewrite <- Nat.iter_succ_r. reflexivity.
  - assert (i = 256) by lia. subst i. reflexivity.
Qed.

Lemma run_store_then {A : Type} (d : device) (v : Z) (k : prog A) (s : hw d) :
  run d (store_CTRL v ;;; k) s = logged (StoreCTRL v) (run d k (ctrl_store d v s)).
Proof. reflexivity. Qed.

Lemma run_busy_wait_then {A : Type} (d : device) (k : prog A) (s : hw d) :
  run d (busy_wait 0 ;;; k) s =
  Outcome (result (run d k (after_delay d s)))
          (final (run d k (after_delay d s)))
          (repeat Nop 256 ++ trace (run d k (after_delay d s))).
Proof.
  rewrite run_bind. cbv zeta.
  rewrite (run_busy_wait d 0) by lia.
  reflexivity.
Qed.

Lemma run_fifo_clear (L : layout) (d : device) (s : hw d) :
  run d (neorv32_trng_fifo_clear L) s =
  Outcome tt
    (ctrl_store d (Z.lor (fst (ctrl_load d s)) (shl1 (TRNG_CTRL_FIFO_CLR L)))
                (snd (ctrl_load d s)))
    [LoadCTRL (fst (ctrl_load d s));
     StoreCTRL (Z.lor (fst (ctrl_load d s)) (shl1 (TRNG_CTRL_FIFO_CLR L)))].
Proof. reflexivity. Qed.

Lemma run_enable (L : layout) (d : device) (s : hw d) :
  run d (neorv32_trng_enable L) s =
  Outcome tt
    (final (run d (neorv32_trng_fifo_clear L) (enabled_settled L d s)))
    (StoreCTRL 0 :: repeat Nop 256 ++
     StoreCTRL (shl1 (TRNG_CTRL_EN L)) :: repeat Nop 256 ++
     trace (run d (neorv32_trng_fifo_clear L) (enabled_settled L d s))).
Proof.
  unfold neorv32_trng_enable.
  rewrite run_store_then, run_busy_wait_then, run_store_then, run_busy_wait_then.
  reflexivity.
Qed.

Lemma run_get (L : layout) (d : device) (s : hw d) (mem_data : Z) :
  0 <= TRNG_CTRL_VALID L < 32 ->
  run d (neorv32_trng_get L mem_data) s =
  Outcome
    (if Z.testbit (fst (ctrl_load d s)) (TRNG_CTRL_VALID L)
     then (0, u8 (Z.shiftr (fst (ctrl_load d s)) (TRNG_CTRL_DATA_LSB L)))
     else (-1, mem_data))
    (snd (ctrl_load d s))
    [LoadCTRL (fst (ctrl_load d s))].
Proof.
  intros HV. unfold neorv32_trng_get. simpl.
  rewrite (nonzero_land_shl1 _ _ HV).
  destruct (Z.testbit (fst (ctrl_load d s)) (TRNG_CTRL_VALID L)); reflexivity.
Qed.

Lemma run_available (L : layout) (d : device) (s : hw d) :
  0 <= SYSINFO_SOC_IO_TRNG L < 32 ->
  run d (neorv32_trng_available L) s =
  Outcome
    (if Z.testbit (fst (soc_load d s)) (SYSINFO_SOC_IO_TRNG L) then 1 else 0)
    (snd (soc_load d s))
    [LoadSOC (fst (soc_load d s))].
Proof.
  intros HP. unfold neorv32_trng_available. simpl.
  rewrite (nonzero_land_shl1 _ _ HP).
  destruct (Z.testbit (fst (soc_load d s)) (SYSINFO_SOC_IO_TRNG L)); reflexivity.
Qed.

Lemma run_check_sim_mode (L : layout) (d : device) (s : hw d) :
  0 <= TRNG_CTRL_SIM_MODE L < 32 ->
  run d (neorv32_trng_check_sim_mode L) s =
  Outcome
    (if Z.testbit (fst (ctrl_load d s)) (TRNG_CTRL_SIM_MODE L) then -1 else 0)
    (snd (ctrl_load d s))
    [LoadCTRL (fst (ctrl_load d s))].
Proof.
  intros HS. unfold neorv32_trng_check_sim_mode. simpl.
  rewrite (nonzero_land_shl1 _ _ HS).
  destruct (Z.testbit (fst (ctrl_load d s)) (TRNG_CTRL_SIM_MODE L)); reflexivity.
Qed.

(** A register file does not change while the driver waits. *)
Lemma after_delay_reg_model (f : Z -> Z) (r : regs) :
  after_delay (reg_model f) r = r.
Proof.
  unfold after_delay. generalize 256%nat.
  induction n as [| n IH]; [reflexivity |].
  rewrite Nat.iter_succ, IH. reflexivity.
Qed.

Lemma enabled_settled_reg_model (L : layout) (f : Z -> Z) (r : regs) :
  enabled_settled L (reg_model f) r = Regs (f (shl1 (TRNG_CTRL_EN L))) (SOC r).
Proof.
  unfold enabled_settled.
  rewrite (after_delay_reg_model f (ctrl_store (reg_model f) 0 r)).
  rewrite after_delay_reg_model. reflexivity.
Qed.

(** On a register file the control register after [neorv32_trng_enable]
    is fixed by the two stores and the read-modify-write alone. *)
Lemma enable_reg_model (L : layout) (f : Z -> Z) (r : regs) :
  final (run (reg_model f) (neorv32_trng_enable L) r) =
  Regs (f (Z.lor (f (shl1 (TRNG_CTRL_EN L))) (shl1 (TRNG_CTRL_FIFO_CLR L))))
       (SOC r).
Proof.
  rewrite run_enable, run_fifo_clear. cbn [final].
  rewrite enabled_settled_reg_model. reflexivity.
Qed.

Lemma enable_trace_reg_model (L : layout) (f : Z -> Z) (r : regs) :
  trace (run (reg_model f) (neorv32_trng_enable L) r) =
  StoreCTRL 0 :: repeat Nop 256 ++
  StoreCTRL (shl1 (TRNG_CTRL_EN L)) :: repeat Nop 256 ++
  [LoadCTRL (f (shl1 (TRNG_CTRL_EN L)));
   StoreCTRL (Z.lor (f (shl1 (TRNG_CTRL_EN L)))
                    (shl1 (TRNG_CTRL_FIFO_CLR L)))].
Proof.
  rewrite run_enable, run_fifo_clear. cbn [trace].
  rewrite enabled_settled_reg_model. reflexivity.
Qed.

(** With a self-clearing FIFO_CLEAR bit, [neorv32_trng_enable] leaves the
    control register with only the ENABLE bit set. *)
Lemma enable_self_clearing (L : layout) (r : regs) :
  0 <= TRNG_CTRL_EN L < 32 ->
  0 <= TRNG_CTRL_FIFO_CLR L < 32 ->
  TRNG_CTRL_EN L <> TRNG_CTRL_FIFO_CLR L ->
  final (run (self_clearing L) (neorv32_trng_enable L) r) =
  Regs (shl1 (TRNG_CTRL_EN L)) (SOC r).
Proof.
  intros HE HC Hne. unfold self_clearing.
  rewrite enable_reg_model. f_equal.
  apply Z.bits_inj'. intros i _.
  rewrite Z.ldiff_spec, Z.lor_spec, Z.ldiff_spec.
  rewrite (shl1_testbit _ i HE), (shl1_testbit _ i HC).
  destruct (Z.eqb_spec i (TRNG_CTRL_EN L)) as [-> | _];
    destruct (Z.eqb_spec (TRNG_CTRL_EN L) (TRNG_CTRL_FIFO_CLR L));
    try contradiction; try reflexivity.
  destruct (i =? TRNG_CTRL_FIFO_CLR L); reflexivity.
Qed.

(** A run on the sample layout: all-zero control register, capability bit
    set; enable, then a byte 0x5A is valid, then it is not. *)
Example scenario_enable_get :
  result (run (self_clearing sample_layout)
            (neorv32_trng_available sample_layout) (Regs 0 (2 ^ 24))) = 1 /\
  final (run (self_clearing sample_layout)
           (neorv32_trng_enable sample_layout) (Regs 0 (2 ^ 24))) =
    Regs (2 ^ 30) (2 ^ 24) /\
  result (run (self_clearing sample_layout)
            (neorv32_trng_get sample_layout 0)
            (Regs (2 ^ 31 + 2 ^ 30 + 90) (2 ^ 24))) = (0, 90) /\
  result (run (self_clearing sample_layout)
            (neorv32_trng_get sample_layout 0)
            (Regs (2 ^ 30 + 90) (2 ^ 24))) = (-1, 0).
Proof. vm_compute. repeat split; reflexivity. Qed.

(** ** Reading a random byte *)

(** C1: [neorv32_trng_get] returns 0 (valid data) if and only if the VALID
    bit of the register value it loads is set, and then the byte stored at
    [data] is the 8-bit field of that same value starting at
    [TRNG_CTRL_DATA_LSB]. *)
Theorem neorv32_trng_get_valid_data
    (L : layout) (d : device) (s : hw d) (mem_data : Z) :
  0 <= TRNG_CTRL_VALID L < 32 ->
  0 <= TRNG_CTRL_DATA_LSB L ->
  let ct_reg := fst (ctrl_load d s) in
  let o := run d (neorv32_trng_get L mem_data) s in
  trace o = [LoadCTRL ct_reg] /\
  (fst (result o) = 0 <-> Z.testbit ct_reg (TRNG_CTRL_VALID L) = true) /\
  (fst (result o) = 0 ->
   0 <= snd (result o) < 256 /\
   forall i, 0 <= i < 8 ->
     Z.testbit (snd (result o)) i =
     Z.testbit ct_reg (TRNG_CTRL_DATA_LSB L + i)).
Proof.
  intros HV HD ct_reg o. subst o ct_reg.
  rewrite (run_get L d s mem_data HV). cbn [trace result].
  destruct (Z.testbit (fst (ctrl_load d s)) (TRNG_CTRL_VALID L));
    cbn [fst snd].
  - split; [reflexivity |]. split; [tauto |].
    intros _. split.
    + apply u8_range.
    + intros i Hi. apply u8_shiftr_testbit; assumption.
  - split; [reflexivity |]. split.
    + split; discriminate.
    + discriminate.
Qed.

Lemma neorv32_trng_get_valid_data_witness :
  let o := run latch (neorv32_trng_get sample_layout 9)
               (Regs (2 ^ 31 + 90) 0) in
  trace o = [LoadCTRL (2 ^ 31 + 90)] /\
  (fst (result o) = 0 <-> Z.testbit (2 ^ 31 + 90) 31 = true) /\
  (fst (result o) = 0 ->
   0 <= snd (result o) < 256 /\
   forall i, 0 <= i < 8 ->
     Z.testbit (snd (result o)) i = Z.testbit (2 ^ 31 + 90) (0 + i)).
Proof.
  apply (neorv32_trng_get_valid_data sample_layout latch
           (Regs (2 ^ 31 + 90) 0) 9); simpl; lia.
Defined.

(** C2: when the VALID bit of the loaded value is clear,
    [neorv32_trng_get] returns -1 and the byte at [data] is what it was; in
    every case the call makes exactly one load of the control register and
    no store, and the device is left as that load leaves it. *)
Theorem neorv32_trng_get_not_ready
    (L : layout) (d : device) (s : hw d) (mem_data : Z) :
  0 <= TRNG_CTRL_VALID L < 32 ->
  let ct_reg := fst (ctrl_load d s) in
  let o := run d (neorv32_trng_get L mem_data) s in
  trace o = [LoadCTRL ct_reg] /\
  final o = snd (ctrl_load d s) /\
  (Z.testbit ct_reg (TRNG_CTRL_VALID L) = false ->
   fst (result o) = -1 /\ snd (result o) = mem_data).
Proof.
  intros HV ct_reg o. subst o ct_reg.
  rewrite (run_get L d s mem_data HV). cbn [trace result final].
  split; [reflexivity |]. split; [reflexivity |].
  intros Hclear. rewrite Hclear. split; reflexivity.
Qed.

Lemma neorv32_trng_get_not_ready_witness :
  let o := run latch (neorv32_trng_get sample_layout 9) (Regs 90 0) in
  trace o = [LoadCTRL 90] /\
  final o = Regs 90 0 /\
  (Z.testbit 90 31 = false -> fst (result o) = -1 /\ snd (result o) = 9).
Proof.
  apply (neorv32_trng_get_not_ready sample_layout latch (Regs 90 0) 9).
  simpl. lia.
Defined.


(** ** Enabling, disabling and clearing the pool *)

(** C3: [neorv32_trng_enable] stores 0 to the control register, executes
    256 [nop]s, stores a value with only the ENABLE bit set, executes 256
    [nop]s again, and ends with the load and store of
    [neorv32_trng_fifo_clear]; the trace holds nothing else. *)
Theorem neorv32_trng_enable_sequence (L : layout) (d : device) (s : hw d) :
  0 <= TRNG_CTRL_EN L < 32 ->
  let s_clr := enabled_settled L d s in
  let v := fst (ctrl_load d s_clr) in
  let o := run d (neorv32_trng_enable L) s in
  trace o =
    [StoreCTRL 0] ++ repeat Nop 256 ++
    [StoreCTRL (shl1 (TRNG_CTRL_EN L))] ++ repeat Nop 256 ++
    [LoadCTRL v; StoreCTRL (Z.lor v (shl1 (TRNG_CTRL_FIFO_CLR L)))] /\
  [LoadCTRL v; StoreCTRL (Z.lor v (shl1 (TRNG_CTRL_FIFO_CLR L)))] =
    trace (run d (neorv32_trng_fifo_clear L) s_clr) /\
  final o = final (run d (neorv32_trng_fifo_clear L) s_clr) /\
  (forall i, Z.testbit (shl1 (TRNG_CTRL_EN L)) i = (i =? TRNG_CTRL_EN L)).
Proof.
  intros HE s_clr v o. subst o v s_clr.
  rewrite run_enable, run_fifo_clear. cbn [trace final].
  split; [reflexivity |]. split; [reflexivity |]. split; [reflexivity |].
  intros i. apply shl1_testbit. exact HE.
Qed.

Lemma neorv32_trng_enable_sequence_witness :
  let o := run latch (neorv32_trng_enable sample_layout) (Regs 5 7) in
  trace o =
    [StoreCTRL 0] ++ repeat Nop 256 ++
    [StoreCTRL (2 ^ 30)] ++ repeat Nop 256 ++
    [LoadCTRL (2 ^ 30); StoreCTRL (2 ^ 30 + 2 ^ 28)] /\
  final o = Regs (2 ^ 30 + 2 ^ 28) 7.
Proof.
  pose proof (neorv32_trng_enable_sequence sample_layout latch (Regs 5 7))
    as H.
  cbv zeta in H.
  destruct H as (Ht & _ & Hf & _); [simpl; lia |].
  split.
  - rewrite Ht. vm_compute. reflexivity.
  - rewrite Hf. vm_compute. reflexivity.
Defined.

(** C4: [neorv32_trng_fifo_clear] loads the control register once and
    stores the loaded value with the FIFO_CLEAR bit or-ed in: that bit is
    set in the stored value and every other bit, ENABLE among them, is the
    bit that was loaded.  On plain storage the register ends as its initial
    value with FIFO_CLEAR set. *)
Theorem neorv32_trng_fifo_clear_rmw (L : layout) (d : device) (s : hw d) :
  0 <= TRNG_CTRL_FIFO_CLR L < 32 ->
  let v := fst (ctrl_load d s) in
  let w := Z.lor v (shl1 (TRNG_CTRL_FIFO_CLR L)) in
  let o := run d (neorv32_trng_fifo_clear L) s in
  trace o = [LoadCTRL v; StoreCTRL w] /\
  final o = ctrl_store d w (snd (ctrl_load d s)) /\
  Z.testbit w (TRNG_CTRL_FIFO_CLR L) = true /\
  (forall i, i <> TRNG_CTRL_FIFO_CLR L -> Z.testbit w i = Z.testbit v i) /\
  (TRNG_CTRL_EN L <> TRNG_CTRL_FIFO_CLR L ->
   Z.testbit w (TRNG_CTRL_EN L) = Z.testbit v (TRNG_CTRL_EN L)) /\
  (forall r : regs,
     final (run latch (neorv32_trng_fifo_clear L) r) =
     Regs (Z.lor (CTRL r) (shl1 (TRNG_CTRL_FIFO_CLR L))) (SOC r)).
Proof.
  intros HC v w o. subst o w v.
  rewrite run_fifo_clear. cbn [trace final].
  assert (Hother : forall i, i <> TRNG_CTRL_FIFO_CLR L ->
            Z.testbit (Z.lor (fst (ctrl_load d s))
                             (shl1 (TRNG_CTRL_FIFO_CLR L))) i =
            Z.testbit (fst (ctrl_load d s)) i).
  { intros i Hi. rewrite Z.lor_spec, (shl1_testbit _ i HC).
    destruct (Z.eqb_spec i (TRNG_CTRL_FIFO_CLR L)) as [He | _];
      [contradiction | apply orb_false_r]. }
  split; [reflexivity |]. split; [reflexivity |]. split.
  { rewrite Z.lor_spec, (shl1_testbit _ _ HC), Z.eqb_refl.
    apply orb_true_r. }
  split; [exact Hother |]. split.
  { intros Hne. apply Hother. exact Hne. }
  intros r. reflexivity.
Qed.

Lemma neorv32_trng_fifo_clear_rmw_witness :
  let o := run latch (neorv32_trng_fifo_clear sample_layout)
               (Regs (2 ^ 30 + 90) 7) in
  trace o = [LoadCTRL (2 ^ 30 + 90); StoreCTRL (2 ^ 30 + 2 ^ 28 + 90)] /\
  final o = Regs (2 ^ 30 + 2 ^ 28 + 90) 7 /\
  Z.testbit (2 ^ 30 + 2 ^ 28 + 90) 30 = Z.testbit (2 ^ 30 + 90) 30.
Proof.
  pose proof (neorv32_trng_fifo_clear_rmw sample_layout latch
                (Regs (2 ^ 30 + 90) 7)) as H.
  cbv zeta in H.
  destruct H as (Ht & Hf & _ & _ & He & _); [simpl; lia |].
  split; [| split].
  - rewrite Ht. vm_compute. reflexivity.
  - rewrite Hf. vm_compute. reflexivity.
  - apply He. simpl. lia.
Defined.

(** ** Queries *)

(** C5: [neorv32_trng_available] returns a nonzero value exactly when bit
    [SYSINFO_SOC_IO_TRNG] of the value loaded from [NEORV32_SYSINFO.SOC] is
    set.  Its only access is that one load; on a register file nothing is
    changed and the answer is the same whatever the control register
    holds. *)
Theorem neorv32_trng_available_iff (L : layout) (d : device) (s : hw d) :
  0 <= SYSINFO_SOC_IO_TRNG L < 32 ->
  let soc := fst (soc_load d s) in
  let o := run d (neorv32_trng_available L) s in
  nonzero (result o) = Z.testbit soc (SYSINFO_SOC_IO_TRNG L) /\
  trace o = [LoadSOC soc] /\
  final o = snd (soc_load d s) /\
  (forall (f : Z -> Z) (ctrl ctrl' sysinfo : Z),
     result (run (reg_model f) (neorv32_trng_available L) (Regs ctrl sysinfo)) =
     result (run (reg_model f) (neorv32_trng_available L) (Regs ctrl' sysinfo)) /\
     final (run (reg_model f) (neorv32_trng_available L) (Regs ctrl sysinfo)) =
     Regs ctrl sysinfo).
Proof.
  intros HP soc o. subst o soc.
  rewrite (run_available L d s HP). cbn [result trace final].
  split.
  { destruct (Z.testbit (fst (soc_load d s)) (SYSINFO_SOC_IO_TRNG L));
      reflexivity. }
  split; [reflexivity |]. split; [reflexivity |].
  intros f ctrl ctrl' sysinfo.
  rewrite !(run_available L (reg_model f) _ HP). split; reflexivity.
Qed.

Lemma neorv32_trng_available_iff_witness :
  let o := run latch (neorv32_trng_available sample_layout)
               (Regs 90 (2 ^ 24)) in
  nonzero (result o) = Z.testbit (2 ^ 24) 24 /\
  trace o = [LoadSOC (2 ^ 24)] /\
  final o = Regs 90 (2 ^ 24) /\
  (forall (f : Z -> Z) (ctrl ctrl' sysinfo : Z),
     result (run (reg_model f) (neorv32_trng_available sample_layout)
               (Regs ctrl sysinfo)) =
     result (run (reg_model f) (neorv32_trng_available sample_layout)
               (Regs ctrl' sysinfo)) /\
     final (run (reg_model f) (neorv32_trng_available sample_layout)
              (Regs ctrl sysinfo)) =
     Regs ctrl sysinfo).
Proof.
  apply (neorv32_trng_available_iff sample_layout latch (Regs 90 (2 ^ 24))).
  simpl. lia.
Defined.

(** C6: [neorv32_trng_check_sim_mode] returns a nonzero value exactly when
    the SIM_MODE bit of the control-register value it loads is set; that
    load is its only access, and two register values that differ in the
    ENABLE and VALID bits alone get the same answer. *)
Theorem neorv32_trng_check_sim_mode_iff
    (L : layout) (d : device) (s : hw d) :
  0 <= TRNG_CTRL_SIM_MODE L < 32 ->
  TRNG_CTRL_SIM_MODE L <> TRNG_CTRL_EN L ->
  TRNG_CTRL_SIM_MODE L <> TRNG_CTRL_VALID L ->
  let ctrl := fst (ctrl_load d s) in
  let o := run d (neorv32_trng_check_sim_mode L) s in
  nonzero (result o) = Z.testbit ctrl (TRNG_CTRL_SIM_MODE L) /\
  trace o = [LoadCTRL ctrl] /\
  final o = snd (ctrl_load d s) /\
  (forall (f : Z -> Z) (v v' sysinfo : Z),
     (forall i, i <> TRNG_CTRL_EN L -> i <> TRNG_CTRL_VALID L ->
                Z.testbit v i = Z.testbit v' i) ->
     result (run (reg_model f) (neorv32_trng_check_sim_mode L)
               (Regs v sysinfo)) =
     result (run (reg_model f) (neorv32_trng_check_sim_mode L)
               (Regs v' sysinfo))).
Proof.
  intros HS HnE HnV ctrl o. subst o ctrl.
  rewrite (run_check_sim_mode L d s HS). cbn [result trace final].
  split.
  { destruct (Z.testbit (fst (ctrl_load d s)) (TRNG_CTRL_SIM_MODE L));
      reflexivity. }
  split; [reflexivity |]. split; [reflexivity |].
  intros f v v' sysinfo Hagree.
  rewrite !(run_check_sim_mode L (reg_model f) _ HS). cbn [result].
  simpl. rewrite (Hagree _ HnE HnV). reflexivity.
Qed.

Lemma neorv32_trng_check_sim_mode_iff_witness :
  let o := run latch (neorv32_trng_check_sim_mode sample_layout)
               (Regs (2 ^ 29 + 90) 0) in
  nonzero (result o) = Z.testbit (2 ^ 29 + 90) 29 /\
  trace o = [LoadCTRL (2 ^ 29 + 90)] /\
  final o = Regs (2 ^ 29 + 90) 0 /\
  (forall (f : Z -> Z) (v v' sysinfo : Z),
     (forall i, i <> 30 -> i <> 31 -> Z.testbit v i = Z.testbit v' i) ->
     result (run (reg_model f) (neorv32_trng_check_sim_mode sample_layout)
               (Regs v sysinfo)) =
     result (run (reg_model f) (neorv32_trng_check_sim_mode sample_layout)
               (Regs v' sysinfo))).
Proof.
  apply (neorv32_trng_check_sim_mode_iff sample_layout latch
           (Regs (2 ^ 29 + 90) 0)); simpl; lia.
Defined.

(** ** Sequences of calls *)

(** C7: [neorv32_trng_disable] is one store of 0 to the control register
    and nothing else, no [nop] included; after [neorv32_trng_enable]
    followed by [neorv32_trng_disable] a control register with plain storage
    holds 0, whatever it held before. *)
Theorem enable_then_disable_zero (L : layout) :
  (forall (d : device) (s : hw d),
     trace (run d (neorv32_trng_disable) s) = [StoreCTRL 0] /\
     final (run d (neorv32_trng_disable) s) = ctrl_store d 0 s) /\
  (forall r : regs,
     final (run latch (neorv32_trng_enable L ;;; neorv32_trng_disable) r) =
     Regs 0 (SOC r)) /\
  (forall (d : device) (s : hw d),
     exists t,
       trace (run d (neorv32_trng_enable L ;;; neorv32_trng_disable) s) =
       t ++ [StoreCTRL 0] /\
       t = trace (run d (neorv32_trng_enable L) s)).
Proof.
  split; [| split].
  - intros d s. split; reflexivity.
  - intros r. rewrite final_run_bind.
    unfold latch. rewrite enable_reg_model. reflexivity.
  - intros d s. eexists. split; [| reflexivity].
    rewrite trace_run_bind. reflexivity.
Qed.

(** C8: on a control register with plain storage, and on any register file
    that keeps a fixed function of what is stored, the registers after two
    calls of [neorv32_trng_enable] are the registers after one call; on
    plain storage the second call repeats the accesses of the first one,
    value for value. *)
Theorem enable_twice_idempotent (L : layout) :
  (forall r : regs,
     final (run latch (neorv32_trng_enable L ;;; neorv32_trng_enable L) r) =
     final (run latch (neorv32_trng_enable L) r)) /\
  (forall (f : Z -> Z) (r : regs),
     final (run (reg_model f)
              (neorv32_trng_enable L ;;; neorv32_trng_enable L) r) =
     final (run (reg_model f) (neorv32_trng_enable L) r)) /\
  (forall r : regs,
     trace (run latch (neorv32_trng_enable L ;;; neorv32_trng_enable L) r) =
     trace (run latch (neorv32_trng_enable L) r) ++
     trace (run latch (neorv32_trng_enable L) r)).
Proof.
  assert (Hf : forall (f : Z -> Z) (r : regs),
            final (run (reg_model f)
                     (neorv32_trng_enable L ;;; neorv32_trng_enable L) r) =
            final (run (reg_model f) (neorv32_trng_enable L) r)).
  { intros f r. rewrite final_run_bind.
    rewrite (enable_reg_model L f (final _)).
    rewrite (enable_reg_model L f r). reflexivity. }
  split; [| split].
  - intros r. apply Hf.
  - exact Hf.
  - intros r. rewrite trace_run_bind.
    unfold latch. rewrite !enable_trace_reg_model. reflexivity.
Qed.

(** ** Termination and return values *)

Lemma nops_app (t u : list access) : nops (t ++ u) = (nops t + nops u)%nat.
Proof. unfold nops. rewrite filter_app, length_app. reflexivity. Qed.

Lemma nops_repeat (n : nat) : nops (repeat Nop n) = n.
Proof.
  unfold nops. induction n as [| n IH]; [reflexivity |].
  simpl. f_equal. exact IH.
Qed.

(** C9: every driver function runs to completion on every device.  The
    loop of [neorv32_trng_enable] leaves with [i = 256] after exactly 256
    [nop]s, in whatever state the device is; [neorv32_trng_enable] executes
    512 [nop]s among 516 trace entries; the other five functions execute no
    [nop] and make one or two accesses. *)
Theorem driver_operations_terminate
    (L : layout) (d : device) (s : hw d) (mem_data : Z) :
  run d (busy_wait 0) s = Outcome 256 (after_delay d s) (repeat Nop 256) /\
  (let t := trace (run d (neorv32_trng_enable L) s) in
   length t = 516%nat /\ nops t = 512%nat) /\
  (let t := trace (run d (neorv32_trng_available L) s) in
   length t = 1%nat /\ nops t = 0%nat) /\
  (let t := trace (run d neorv32_trng_disable s) in
   length t = 1%nat /\ nops t = 0%nat) /\
  (let t := trace (run d (neorv32_trng_fifo_clear L) s) in
   length t = 2%nat /\ nops t = 0%nat) /\
  (let t := trace (run d (neorv32_trng_get L mem_data) s) in
   length t = 1%nat /\ nops t = 0%nat) /\
  (let t := trace (run d (neorv32_trng_check_sim_mode L) s) in
   length t = 1%nat /\ nops t = 0%nat).
Proof.
  split.
  { rewrite (run_busy_wait d 0) by lia. reflexivity. }
  split.
  { cbv zeta. rewrite run_enable, run_fifo_clear. cbn [trace]. split.
    - cbn [length]. rewrite length_app, repeat_length. cbn [length].
      rewrite length_app, repeat_length. reflexivity.
    - change (StoreCTRL 0 :: ?t) with ([StoreCTRL 0] ++ t).
      rewrite nops_app, nops_app, nops_repeat.
      change (StoreCTRL ?v :: repeat Nop 256 ++ ?t)
        with ([StoreCTRL v] ++ repeat Nop 256 ++ t).
      rewrite nops_app, nops_app, nops_repeat. reflexivity. }
  split.
  { unfold neorv32_trng_available. simpl.
    destruct (nonzero _); split; reflexivity. }
  split; [split; reflexivity |].
  split; [split; reflexivity |].
  split.
  { unfold neorv32_trng_get. simpl.
    destruct (nonzero _); split; reflexivity. }
  unfold neorv32_trng_check_sim_mode. simpl.
  destruct (nonzero _); split; reflexivity.
Qed.

(** C10: [neorv32_trng_available] returns 0 or 1, and 1 exactly when the
    TRNG bit of SYSINFO.SOC is set; [neorv32_trng_get] returns 0 or -1, and
    0 exactly when the VALID bit is set; [neorv32_trng_check_sim_mode]
    returns 0 or -1, and -1 exactly when the SIM_MODE bit is set. *)
Theorem return_value_encodings
    (L : layout) (d : device) (s : hw d) (mem_data : Z) :
  0 <= SYSINFO_SOC_IO_TRNG L < 32 ->
  0 <= TRNG_CTRL_VALID L < 32 ->
  0 <= TRNG_CTRL_SIM_MODE L < 32 ->
  let a := result (run d (neorv32_trng_available L) s) in
  let g := fst (result (run d (neorv32_trng_get L mem_data) s)) in
  let m := result (run d (neorv32_trng_check_sim_mode L) s) in
  (a = 0 \/ a = 1) /\
  (a = 1 <-> Z.testbit (fst (soc_load d s)) (SYSINFO_SOC_IO_TRNG L) = true) /\
  (g = 0 \/ g = -1) /\
  (g = 0 <-> Z.testbit (fst (ctrl_load d s)) (TRNG_CTRL_VALID L) = true) /\
  (m = 0 \/ m = -1) /\
  (m = -1 <-> Z.testbit (fst (ctrl_load d s)) (TRNG_CTRL_SIM_MODE L) = true).
Proof.
  intros HP HV HS a g m. subst a g m.
  rewrite (run_available L d s HP), (run_get L d s mem_data HV),
    (run_check_sim_mode L d s HS).
  cbn [result].
  destruct (Z.testbit (fst (soc_load d s)) (SYSINFO_SOC_IO_TRNG L));
    destruct (Z.testbit (fst (ctrl_load d s)) (TRNG_CTRL_VALID L));
    destruct (Z.testbit (fst (ctrl_load d s)) (TRNG_CTRL_SIM_MODE L));
    cbn [fst];
    repeat split; auto; discriminate.
Qed.

Lemma return_value_encodings_witness :
  let r := Regs (2 ^ 31 + 90) (2 ^ 24) in
  let a := result (run latch (neorv32_trng_available sample_layout) r) in
  let g := fst (result (run latch (neorv32_trng_get sample_layout 9) r)) in
  let m := result (run latch (neorv32_trng_check_sim_mode sample_layout) r) in
  (a = 0 \/ a = 1) /\
  (a = 1 <-> Z.testbit (2 ^ 24) 24 = true) /\
  (g = 0 \/ g = -1) /\
  (g = 0 <-> Z.testbit (2 ^ 31 + 90) 31 = true) /\
  (m = 0 \/ m = -1) /\
  (m = -1 <-> Z.testbit (2 ^ 31 + 90) 29 = true).
Proof.
  apply (return_value_encodings sample_layout latch
           (Regs (2 ^ 31 + 90) (2 ^ 24)) 9); simpl; lia.
Defined.

(** ** Sequences of driver calls *)

Lemma result_run_bind {A B : Type} (d : device) (p : prog A)
    (f : A -> prog B) (s : hw d) :
  result (run d (bind p f) s) =
  result (run d (f (result (run d p s))) (final (run d p s))).
Proof. rewrite run_bind. reflexivity. Qed.

Lemma word_store_repeat_nop (n : nat) :
  forallb word_store (repeat Nop n) = true.
Proof. induction n as [| n IH]; [reflexivity | exact IH]. Qed.

Lemma word_store_in_range (v : Z) :
  0 <= v < 2 ^ 32 -> word_store (StoreCTRL v) = true.
Proof.
  intros [Hlo Hhi]. unfold word_store.
  apply andb_true_intro. split.
  - apply Z.leb_le. exact Hlo.
  - apply Z.ltb_lt. exact Hhi.
Qed.

Lemma word_store_shl1 (p : Z) : word_store (StoreCTRL (shl1 p)) = true.
Proof. apply word_store_in_range. unfold shl1. apply u32_range. Qed.

Lemma word_store_rmw (v w : Z) :
  0 <= w < 2 ^ 32 -> forallb word_store [LoadCTRL v; StoreCTRL w] = true.
Proof.
  intros Hw. cbn [forallb]. rewrite (word_store_in_range w Hw). reflexivity.
Qed.

Section WordDevice.

Variable L : layout.
Variable d : device.
Hypothesis load_word : forall s : hw d, 0 <= fst (ctrl_load d s) < 2 ^ 32.

Lemma perform_word_stores (c : call) (s : hw d) :
  forallb word_store (trace (run d (perform L c) s)) = true.
Proof.
  destruct c as [| | | | mem_data |]; cbn [perform].
  - rewrite trace_run_bind, app_nil_r.
    unfold neorv32_trng_available. simpl.
    destruct (nonzero _); reflexivity.
  - rewrite run_enable, run_fifo_clear. cbn [trace].
    cbn [forallb]. rewrite forallb_app, word_store_repeat_nop.
    cbn [forallb]. rewrite word_store_shl1.
    rewrite forallb_app, word_store_repeat_nop.
    rewrite word_store_rmw; [reflexivity |].
    apply lor_shl1_range. apply load_word.
  - reflexivity.
  - rewrite run_fifo_clear. cbn [trace].
    apply word_store_rmw. apply lor_shl1_range. apply load_word.
  - rewrite trace_run_bind, app_nil_r.
    unfold neorv32_trng_get. simpl.
    destruct (nonzero _); reflexivity.
  - rewrite trace_run_bind, app_nil_r.
    unfold neorv32_trng_check_sim_mode. simpl.
    destruct (nonzero _); reflexivity.
Qed.

End WordDevice.

(** Whatever sequence of driver calls is made on a device whose control
    register loads as a 32-bit word, every value the driver stores is a
    32-bit word: the [|=] and the two assignments never need truncation. *)
Theorem driver_stores_words
    (L : layout) (d : device) (cs : list call) (s : hw d) :
  (forall s' : hw d, 0 <= fst (ctrl_load d s') < 2 ^ 32) ->
  forallb word_store (trace (run d (perform_all L cs) s)) = true.
Proof.
  intros Hload. revert s.
  induction cs as [| c cs IH]; intros s; [reflexivity |].
  cbn [perform_all]. rewrite trace_run_bind, forallb_app.
  rewrite (perform_word_stores L d Hload c s). apply IH.
Qed.

Lemma driver_stores_words_witness :
  forallb word_store
    (trace (run (bus32 latch)
              (perform_all sample_layout [Enable; Get 0; FifoClear; Disable])
              (Regs (2 ^ 40 + 5) 0))) = true.
Proof.
  apply (driver_stores_words sample_layout (bus32 latch)
           [Enable; Get 0; FifoClear; Disable] (Regs (2 ^ 40 + 5) 0)).
  intros s'. simpl. unfold u32. apply Z.mod_pos_bound. lia.
Defined.

(** No program over the bus can change [NEORV32_SYSINFO.SOC] of a register
    file: the driver has no store to it. *)
Lemma soc_run_reg_model {A : Type} (f : Z -> Z) (p : prog A) :
  forall r : regs, SOC (final (run (reg_model f) p r)) = SOC r.
Proof.
  induction p as [a | k IH | v k IH | k IH | k IH]; intros r; simpl.
  - reflexivity.
  - apply IH.
  - rewrite IH. reflexivity.
  - apply IH.
  - apply IH.
Qed.

(** The control register of plain storage after one driver call. *)
Lemma perform_latch_ctrl (L : layout) (c : call) (r : regs) :
  final (run latch (perform L c) r) =
  Regs (match c with
        | Enable => Z.lor (shl1 (TRNG_CTRL_EN L)) (shl1 (TRNG_CTRL_FIFO_CLR L))
        | Disable => 0
        | FifoClear => Z.lor (CTRL r) (shl1 (TRNG_CTRL_FIFO_CLR L))
        | _ => CTRL r
        end) (SOC r).
Proof.
  destruct c as [| | | | mem_data |]; cbn [perform].
  - rewrite final_run_bind. unfold neorv32_trng_available. simpl.
    destruct (nonzero _); destruct r; reflexivity.
  - unfold latch. apply enable_reg_model.
  - reflexivity.
  - rewrite run_fifo_clear. reflexivity.
  - rewrite final_run_bind. unfold neorv32_trng_get. simpl.
    destruct (nonzero _); destruct r; reflexivity.
  - rewrite final_run_bind. unfold neorv32_trng_check_sim_mode. simpl.
    destruct (nonzero _); destruct r; reflexivity.
Qed.

(** On plain storage no sequence of driver calls sets a bit of the control
    register other than ENABLE and FIFO_CLR: such a bit is set afterwards
    only if it was set before (VALID, SIM_MODE and the data bits are never
    written as 1 by the driver on its own). *)
Theorem driver_sets_only_enable_and_clear
    (L : layout) (cs : list call) (r : regs) (i : Z) :
  0 <= TRNG_CTRL_EN L < 32 ->
  0 <= TRNG_CTRL_FIFO_CLR L < 32 ->
  i <> TRNG_CTRL_EN L ->
  i <> TRNG_CTRL_FIFO_CLR L ->
  Z.testbit (CTRL (final (run latch (perform_all L cs) r))) i = true ->
  Z.testbit (CTRL r) i = true.
Proof.
  intros HE HC HiE HiC. revert r.
  assert (HnE : (i =? TRNG_CTRL_EN L) = false) by (apply Z.eqb_neq; exact HiE).
  assert (HnC : (i =? TRNG_CTRL_FIFO_CLR L) = false)
    by (apply Z.eqb_neq; exact HiC).
  induction cs as [| c cs IH]; intros r Hset; [exact Hset |].
  cbn [perform_all] in Hset. rewrite final_run_bind in Hset.
  apply IH in Hset. rewrite perform_latch_ctrl in Hset. cbn [CTRL] in Hset.
  destruct c as [| | | | mem_data |]; try exact Hset.
  - rewrite Z.lor_spec, (shl1_testbit _ i HE), (shl1_testbit _ i HC),
      HnE, HnC in Hset. discriminate.
  - rewrite Z.bits_0 in Hset. discriminate.
  - rewrite Z.lor_spec, (shl1_testbit _ i HC), HnC, orb_false_r in Hset.
    exact Hset.
Qed.

Lemma driver_sets_only_enable_and_clear_witness :
  Z.testbit (CTRL (Regs (2 ^ 31 + 90) 0)) 31 = true.
Proof.
  apply (driver_sets_only_enable_and_clear sample_layout
           [FifoClear; Get 7; Available] (Regs (2 ^ 31 + 90) 0) 31).
  - simpl. lia.
  - simpl. lia.
  - simpl. lia.
  - simpl. lia.
  - vm_compute. reflexivity.
Defined.

(** On a register file, [neorv32_trng_enable] leaves the same registers
    whatever driver calls were made before it. *)
Theorem enable_after_any_calls
    (L : layout) (f : Z -> Z) (cs : list call) (r : regs) :
  final (run (reg_model f) (perform_all L cs ;;; neorv32_trng_enable L) r) =
  final (run (reg_model f) (neorv32_trng_enable L) r).
Proof.
  rewrite final_run_bind.
  rewrite (enable_reg_model L f (final _)), (enable_reg_model L f r).
  f_equal. exact (soc_run_reg_model f (perform_all L cs) r).
Qed.

(** On a register file, [neorv32_trng_disable] after any driver calls leaves
    the control register as a store of 0 leaves it, and on plain storage at
    0; SYSINFO is as before. *)
Theorem disable_after_any_calls
    (L : layout) (f : Z -> Z) (cs : list call) (r : regs) :
  final (run (reg_model f) (perform_all L cs ;;; neorv32_trng_disable) r) =
    Regs (f 0) (SOC r) /\
  final (run latch (perform_all L cs ;;; neorv32_trng_disable) r) =
    Regs 0 (SOC r).
Proof.
  assert (Hf : forall g : Z -> Z,
            final (run (reg_model g)
                     (perform_all L cs ;;; neorv32_trng_disable) r) =
            Regs (g 0) (SOC r)).
  { intros g. rewrite final_run_bind.
    unfold neorv32_trng_disable, store_CTRL. cbn [run logged final].
    cbn [ctrl_store reg_model]. f_equal.
    exact (soc_run_reg_model g (perform_all L cs) r). }
  split; [apply Hf |]. unfold latch. apply (Hf (fun v => v)).
Qed.

(** ** What enable and the pool clear leave behind *)

(** On plain storage the control register after [neorv32_trng_enable] has
    exactly the ENABLE and FIFO_CLR bits set, whatever it held before. *)
Theorem enable_latch_bits (L : layout) (r : regs) (i : Z) :
  0 <= TRNG_CTRL_EN L < 32 ->
  0 <= TRNG_CTRL_FIFO_CLR L < 32 ->
  Z.testbit (CTRL (final (run latch (neorv32_trng_enable L) r))) i =
  (i =? TRNG_CTRL_EN L) || (i =? TRNG_CTRL_FIFO_CLR L).
Proof.
  intros HE HC. unfold latch. rewrite enable_reg_model. cbn [CTRL].
  rewrite Z.lor_spec, (shl1_testbit _ i HE), (shl1_testbit _ i HC).
  reflexivity.
Qed.

Lemma enable_latch_bits_witness :
  Z.testbit
    (CTRL (final (run latch (neorv32_trng_enable sample_layout)
                    (Regs (2 ^ 32 - 1) 0)))) 31 =
  (31 =? 30) || (31 =? 28).
Proof.
  apply (enable_latch_bits sample_layout (Regs (2 ^ 32 - 1) 0) 31);
    simpl; lia.
Defined.

Lemma enable_self_clearing_witness :
  final (run (self_clearing sample_layout)
           (neorv32_trng_enable sample_layout) (Regs (2 ^ 32 - 1) 7)) =
  Regs (shl1 30) 7.
Proof.
  apply (enable_self_clearing sample_layout (Regs (2 ^ 32 - 1) 7));
    simpl; lia.
Defined.

(** On plain storage a second [neorv32_trng_fifo_clear] changes nothing:
    the bit is already set and the or-in keeps the rest. *)
Theorem fifo_clear_twice_latch (L : layout) (r : regs) :
  final (run latch
           (neorv32_trng_fifo_clear L ;;; neorv32_trng_fifo_clear L) r) =
  final (run latch (neorv32_trng_fifo_clear L) r).
Proof.
  rewrite final_run_bind, !run_fifo_clear. cbn [final].
  simpl. rewrite <- Z.lor_assoc, Z.lor_diag. reflexivity.
Qed.

(** Where FIFO_CLR resets itself and reads as 0, [neorv32_trng_fifo_clear]
    leaves the registers exactly as they were. *)
Theorem fifo_clear_self_clearing (L : layout) (r : regs) :
  0 <= TRNG_CTRL_FIFO_CLR L < 32 ->
  Z.testbit (CTRL r) (TRNG_CTRL_FIFO_CLR L) = false ->
  final (run (self_clearing L) (neorv32_trng_fifo_clear L) r) = r.
Proof.
  intros HC Hclr. rewrite run_fifo_clear. cbn [final].
  unfold self_clearing. simpl. destruct r as [ctrl soc]. cbn [CTRL] in *.
  f_equal. apply Z.bits_inj'. intros i _.
  rewrite Z.ldiff_spec, Z.lor_spec, (shl1_testbit _ i HC).
  destruct (Z.eqb_spec i (TRNG_CTRL_FIFO_CLR L)) as [-> | _].
  - rewrite Hclr. reflexivity.
  - rewrite orb_false_r, andb_true_r. reflexivity.
Qed.

Lemma fifo_clear_self_clearing_witness :
  final (run (self_clearing sample_layout)
           (neorv32_trng_fifo_clear sample_layout) (Regs (2 ^ 30 + 90) 7)) =
  Regs (2 ^ 30 + 90) 7.
Proof.
  apply (fifo_clear_self_clearing sample_layout (Regs (2 ^ 30 + 90) 7)).
  - simpl. lia.
  - reflexivity.
Defined.

(** ** Polling *)

Lemma u8_high_bits (z i : Z) : 8 <= i -> Z.testbit (u8 z) i = false.
Proof. intros Hi. unfold u8. apply Z.mod_pow2_bits_high. lia. Qed.

(** What [neorv32_trng_get] returns and stores is fixed by the VALID bit
    and the eight data bits of the register: values that agree there get
    the same answer, whatever ENABLE, SIM_MODE, FIFO_CLR and the remaining
    bits are. *)
Theorem get_reads_valid_and_data_only
    (L : layout) (f : Z -> Z) (v v' soc soc' mem_data : Z) :
  0 <= TRNG_CTRL_VALID L < 32 ->
  0 <= TRNG_CTRL_DATA_LSB L ->
  Z.testbit v (TRNG_CTRL_VALID L) = Z.testbit v' (TRNG_CTRL_VALID L) ->
  (forall i, 0 <= i < 8 ->
     Z.testbit v (TRNG_CTRL_DATA_LSB L + i) =
     Z.testbit v' (TRNG_CTRL_DATA_LSB L + i)) ->
  result (run (reg_model f) (neorv32_trng_get L mem_data) (Regs v soc)) =
  result (run (reg_model f) (neorv32_trng_get L mem_data) (Regs v' soc')).
Proof.
  intros HV HD Hvalid Hdata.
  rewrite !(run_get L (reg_model f) _ mem_data HV). cbn [result].
  simpl. rewrite Hvalid.
  destruct (Z.testbit v' (TRNG_CTRL_VALID L)); [| reflexivity].
  f_equal. apply Z.bits_inj'. intros i Hi.
  destruct (Z_lt_ge_dec i 8) as [Hlt | Hge].
  - rewrite !u8_shiftr_testbit by lia. apply Hdata. lia.
  - rewrite !u8_high_bits by lia. reflexivity.
Qed.

Lemma get_reads_valid_and_data_only_witness :
  result (run latch (neorv32_trng_get sample_layout 9)
            (Regs (2 ^ 31 + 90) 0)) =
  result (run latch (neorv32_trng_get sample_layout 9)
            (Regs (2 ^ 31 + 2 ^ 30 + 2 ^ 29 + 90) 5)).
Proof.
  apply (get_reads_valid_and_data_only sample_layout (fun v => v)
           (2 ^ 31 + 90) (2 ^ 31 + 2 ^ 30 + 2 ^ 29 + 90) 0 5 9).
  - simpl. lia.
  - simpl. lia.
  - reflexivity.
  - intros i Hi. simpl.
    assert (Hc : i = 0 \/ i = 1 \/ i = 2 \/ i = 3 \/
                 i = 4 \/ i = 5 \/ i = 6 \/ i = 7) by lia.
    destruct Hc as [-> | [-> | [-> | [-> | [-> | [-> | [-> | ->]]]]]]];
      reflexivity.
Defined.

(** [neorv32_trng_get] acknowledges nothing: on a register file, which
    keeps its contents across loads, a second poll returns what the first
    one did, stores the same byte, and the registers are untouched. *)
Theorem get_twice_same (L : layout) (f : Z -> Z) (r : regs) (mem_data : Z) :
  let o := run (reg_model f) (get_twice L mem_data) r in
  snd (result o) = fst (result o) /\
  final o = r /\
  trace o = [LoadCTRL (CTRL r); LoadCTRL (CTRL r)].
Proof.
  unfold get_twice, neorv32_trng_get. simpl.
  destruct (nonzero (Z.land (CTRL r) (shl1 (TRNG_CTRL_VALID L)))) eqn:Hv;
    simpl; rewrite Hv; simpl; repeat split; reflexivity.
Qed.

(** Plain storage produces no data by itself: straight after
    [neorv32_trng_enable], [neorv32_trng_get] reports -1 and leaves the byte
    at [data] alone, and [neorv32_trng_check_sim_mode] reports 0. *)
Theorem enable_then_poll_latch (L : layout) (r : regs) (mem_data : Z) :
  0 <= TRNG_CTRL_EN L < 32 ->
  0 <= TRNG_CTRL_FIFO_CLR L < 32 ->
  0 <= TRNG_CTRL_VALID L < 32 ->
  0 <= TRNG_CTRL_SIM_MODE L < 32 ->
  TRNG_CTRL_VALID L <> TRNG_CTRL_EN L ->
  TRNG_CTRL_VALID L <> TRNG_CTRL_FIFO_CLR L ->
  TRNG_CTRL_SIM_MODE L <> TRNG_CTRL_EN L ->
  TRNG_CTRL_SIM_MODE L <> TRNG_CTRL_FIFO_CLR L ->
  result (run latch
            (neorv32_trng_enable L ;;; neorv32_trng_get L mem_data) r) =
    (-1, mem_data) /\
  result (run latch
            (neorv32_trng_enable L ;;; neorv32_trng_check_sim_mode L) r) = 0.
Proof.
  intros HE HC HV HS HVE HVC HSE HSC.
  rewrite !result_run_bind.
  rewrite (run_get L latch _ mem_data HV), (run_check_sim_mode L latch _ HS).
  cbn [result]. unfold latch. rewrite enable_reg_model. simpl.
  rewrite !Z.lor_spec, !(shl1_testbit _ _ HE), !(shl1_testbit _ _ HC).
  apply Z.eqb_neq in HVE, HVC, HSE, HSC.
  rewrite HVE, HVC, HSE, HSC. split; reflexivity.
Qed.

Lemma enable_then_poll_latch_witness :
  result (run latch
            (neorv32_trng_enable sample_layout ;;;
             neorv32_trng_get sample_layout 9) (Regs (2 ^ 31 + 90) 0)) =
    (-1, 9) /\
  result (run latch
            (neorv32_trng_enable sample_layout ;;;
             neorv32_trng_check_sim_mode sample_layout)
            (Regs (2 ^ 31 + 90) 0)) = 0.
Proof.
  apply (enable_then_poll_latch sample_layout (Regs (2 ^ 31 + 90) 0) 9);
    simpl; lia.
Defined.
